(** * tools/convert-icon.py: a shallow embedding and its properties

    The script converts one image file into a multi-resolution icon:

      def convert_to_ico(source, target):
          if not os.path.exists(source):
              print(f"Source file {source} not found.")
              return
          img = Image.open(source)
          img.save(target, format='ICO', sizes=[(256, 256), ..., (16, 16)])
          print(f"Created {target} from {source}")

    Everything the function does is an effect on the outside world, so the
    embedding is a state-and-exception monad over a small model of that
    world: a file system, the console, and a trace of the operations that
    were attempted.  The imaging library the script imports (PIL) is not
    part of the repository; it enters as an interface: the decoder and the
    resampler as [ImageLibrary], the writers behind [Image.save] as
    [SaveHandlers]. *)

From Stdlib Require Import ZArith.
From stdpp Require Import gmap strings list.

Open Scope Z_scope.

(** ** Python-level data *)

(** The values a caller of the script's function can get back. *)
Inductive pyval : Type :=
  | PyNone
  | PyBool (b : bool)
  | PyStr (s : string).

(** A (width, height) tuple. *)
Definition size : Type := (Z * Z)%type.

(** The exceptions of the operations the script calls.  The script has no
    [try] and no [raise] of its own. *)
Inductive exn : Type :=
  | FileNotFoundError (path : string)
  | IsADirectoryError (path : string)
  | PermissionError (path : string)
  | UnidentifiedImageError (path : string)
  | WriterError (message : string).

(** ** The imaging library, as an interface *)

Record Frame (I : Type) : Type := MkFrame {
  frame_size : size;
  frame_image : I
}.
Arguments MkFrame {I} _ _.
Arguments frame_size {I} _.
Arguments frame_image {I} _.

(** What the script needs from PIL: a type of decoded images, the decoder
    ([None] when the bytes are not an image the library identifies), the
    resampling of an image to a size, and the serialisation of a list of
    frames as an icon file. *)
Class ImageLibrary : Type := {
  Image : Type;
  decode : list Byte.byte -> option Image;
  resample : Image -> size -> Image;
  ico_bytes : list (Frame Image) -> list Byte.byte
}.

(** The [format] keyword of [Image.save]; the script passes 'ICO' only. *)
Inductive ImageFormat : Type := ICO.

(** What a format's writer makes of an image: the complete file, or an
    error raised part-way ([WriterError], with the library's message) and
    the bytes it had put into the file by then. *)
Inductive written : Type :=
  | Complete (content : list Byte.byte)
  | BrokeOff (message : string) (partial : list Byte.byte).

(** The writers [Image.save] dispatches to, one per format. *)
Class SaveHandlers (lib : ImageLibrary) : Type := {
  save_handler : ImageFormat -> Image -> list size -> written
}.

(** ** The world *)

(** A file the process can read, a directory, or a file it may not
    read. *)
Inductive Node : Type :=
  | File (content : list Byte.byte)
  | Dir
  | Unreadable.

(** What happened, in order: calls of the script's own function, and the
    operations on the outside world that were attempted. *)
Inductive event : Type :=
  | Call (fn : string) (args : list string)
  | Stat (path : string)
  | OpenRead (path : string)
  | OpenWrite (path : string)
  | Print (line : string).

(** [files] is keyed by path as resolved by the system: one key per file,
    not per spelling of its name.  [write_denied] holds the paths the
    process may not create or overwrite (permissions, a parent directory
    that is missing). *)
Record World : Type := MkWorld {
  files : gmap string Node;
  write_denied : gset string;
  trace : list event
}.

Definition log (e : event) (w : World) : World :=
  {| files := files w; write_denied := write_denied w;
     trace := trace w ++ [e] |}.

Definition logs (es : list event) (w : World) : World :=
  {| files := files w; write_denied := write_denied w;
     trace := trace w ++ es |}.

(** The events a run from [w] to [w'] added. *)
Definition new_events (w w' : World) : list event :=
  drop (length (trace w)) (trace w').

Definition is_call (e : event) : bool :=
  match e with Call _ _ => true | _ => false end.

Definition put_file (p : string) (n : Node) (w : World) : World :=
  {| files := <[p := n]> (files w); write_denied := write_denied w;
     trace := trace w |}.

(** What a writer that breaks off leaves behind.  [Image.save] opens the
    target, emptying it, before the writer runs, and on an error removes
    the file only when this call created it. *)
Definition leave_partial (p : string) (partial : list Byte.byte) (w : World)
  : World :=
  match files w !! p with
  | None => w
  | Some _ => put_file p (File partial) w
  end.

(** ** The monad: state plus exceptions *)

Inductive result (A : Type) : Type :=
  | Ok (a : A)
  | Raise (e : exn).
Arguments Ok {A} _.
Arguments Raise {A} _.

Definition M (A : Type) : Type := World -> result A * World.

Definition ret {A : Type} (a : A) : M A := fun w => (Ok a, w).

Definition bind {A B : Type} (m : M A) (k : A -> M B) : M B :=
  fun w =>
    match m w with
    | (Ok a, w') => k a w'
    | (Raise e, w') => (Raise e, w')
    end.

Definition emit (e : event) : M unit := fun w => (Ok tt, log e w).

Declare Scope py_scope.
Delimit Scope py_scope with py.
Notation "'do' x <- c ; k" := (bind c (fun x => k))
  (at level 10, x name, c at level 100, k at level 200) : py_scope.
Notation "'run' c ; k" := (bind c (fun _ => k))
  (at level 10, c at level 100, k at level 200) : py_scope.

(** ** Strings *)

(** Substring test, used to say that a printed line names a path. *)
Fixpoint contains (needle hay : string) : bool :=
  String.prefix needle hay ||
  match hay with
  | EmptyString => false
  | String _ rest => contains needle rest
  end.

(** The list the script passes as [sizes], for use in statements. *)
Definition icon_sizes : list size :=
  [(256, 256); (128, 128); (64, 64); (48, 48); (32, 32); (16, 16)].

(** ** The operations the script calls *)

(** [os.path.exists]: true for files and for directories. *)
Definition os_path_exists (p : string) : M bool :=
  fun w => (Ok (bool_decide (is_Some (files w !! p))), log (Stat p) w).

(** [print]: one line on the console. *)
Definition print (line : string) : M unit := emit (Print line).

(** Can [target] be opened for writing in [w]? *)
Definition can_write (w : World) (target : string) : bool :=
  bool_decide (target ∉ write_denied w) &&
  match files w !! target with
  | Some Dir => false
  | _ => true
  end.

Section Library.
Context {lib : ImageLibrary}.

(** The image [Image.open] gets from [p], if it gets one. *)
Definition image_at (w : World) (p : string) : option Image :=
  match files w !! p with
  | Some (File data) => decode data
  | _ => None
  end.

(** The exception [Image.save] raises when it cannot write [target]. *)
Definition save_error (w : World) (target : string) : exn :=
  match files w !! target with
  | Some Dir => IsADirectoryError target
  | _ => PermissionError target
  end.

(** [Image.open]: opens the file and decodes it. *)
Definition Image_open (p : string) : M Image :=
  (run emit (OpenRead p);
   fun w =>
     match files w !! p with
     | None => (Raise (FileNotFoundError p), w)
     | Some Dir => (Raise (IsADirectoryError p), w)
     | Some Unreadable => (Raise (PermissionError p), w)
     | Some (File data) =>
         match decode data with
         | Some img => (Ok img, w)
         | None => (Raise (UnidentifiedImageError p), w)
         end
     end)%py.

(** Modelled from the spec: the icon writer behind [Image.save] belongs
    to PIL, which the repository imports but does not contain.  Following
    the spec's data model ("a container holding one encoded image per
    requested resolution", each "derived from the source image via the
    image library's resampling"), it makes one frame per requested size,
    in the order requested. *)
Definition ico_frames (img : Image) (sizes : list size) : list (Frame Image) :=
  map (fun s => MkFrame s (resample img s)) sizes.

Definition encode (format : ImageFormat) (img : Image) (sizes : list size)
  : list Byte.byte :=
  match format with
  | ICO => ico_bytes (ico_frames img sizes)
  end.

(** Modelled from the spec: the writers of PIL as the spec describes
    them, for the statements that are about the icon file itself.  The spec
    gives the writer no way to fail on an image that decoded: it always
    completes, with the frames of [ico_frames]. *)
Definition spec_handlers : SaveHandlers lib := {|
  save_handler := fun format img sizes => Complete (encode format img sizes)
|}.

End Library.

Section Script.
Context {lib : ImageLibrary} {sh : SaveHandlers lib}.

(** [img.save(target, format=..., sizes=...)]: opens [target] for writing
    and lets the writer of [format] fill it. *)
Definition Image_save (img : Image) (target : string)
    (format : ImageFormat) (sizes : list size) : M unit :=
  (run emit (OpenWrite target);
   fun w =>
     if can_write w target
     then match save_handler format img sizes with
          | Complete content => (Ok tt, put_file target (File content) w)
          | BrokeOff message partial =>
              (Raise (WriterError message), leave_partial target partial w)
          end
     else (Raise (save_error w target), w))%py.

(** ** The script *)

Definition convert_to_ico (source target : string) : M pyval :=
  (run emit (Call "convert_to_ico" [source; target]);
   do found <- os_path_exists source;
   if negb found then
     run print ("Source file " +:+ source +:+ " not found.");
     ret PyNone
   else
     do img <- Image_open source;
     run Image_save img target ICO
           [(256, 256); (128, 128); (64, 64); (48, 48); (32, 32); (16, 16)];
     run print ("Created " +:+ target +:+ " from " +:+ source);
     ret PyNone)%py.

(** The module body: the [def], then the [if __name__ == "__main__"]
    block.  [argv] is there to be ignored. *)
Definition script (name : string) (argv : list string) : M unit :=
  (if String.eqb name "__main__" then
     run convert_to_ico "icon-512.png" "app.ico";
     ret tt
   else ret tt)%py.

End Script.

(** ** Reading an icon back *)

(** The number of pixels of a size. *)
Definition area (s : size) : Z := fst s * snd s.

Definition larger {I : Type} (a b : Frame I) : Frame I :=
  if area (frame_size a) <? area (frame_size b) then b else a.

(** The frame with the most pixels (the first of them, on a tie). *)
Definition largest_frame {I : Type} (fs : list (Frame I)) : option (Frame I) :=
  match fs with
  | [] => None
  | f :: rest => Some (fold_left larger rest f)
  end.

(** ** A small instance, to run the embedding *)

(** Images are a size and a payload; a file decodes when it starts with
    the PNG signature; an icon file is a four-byte header followed by the
    payloads of its frames. *)
Definition stub_decode (data : list Byte.byte) : option (size * list Byte.byte) :=
  match data with
  | Byte.x89 :: Byte.x50 :: Byte.x4e :: Byte.x47 :: px => Some ((512, 512), px)
  | _ => None
  end.

Definition stub_library : ImageLibrary := {|
  Image := size * list Byte.byte;
  decode := stub_decode;
  resample := fun img s => (s, snd img);
  ico_bytes := fun fs =>
    [Byte.x00; Byte.x00; Byte.x01; Byte.x00]
      ++ concat (map (fun f => snd (frame_image f)) fs)
|}.

(** A writer for the small instance that cannot encode every image, as
    PIL's cannot encode every mode: it gives up on a payload that starts
    with byte 4, after the header. *)
Definition picky_writer (format : ImageFormat)
    (img : size * list Byte.byte) (sizes : list size) : written :=
  match snd img with
  | Byte.x04 :: _ =>
      BrokeOff "cannot write mode CMYK as PNG"
               [Byte.x00; Byte.x00; Byte.x01; Byte.x00]
  | _ => Complete (encode (lib := stub_library) format img sizes)
  end.

Definition picky_handlers : SaveHandlers stub_library :=
  @Build_SaveHandlers stub_library picky_writer.

(** A directory with a photo that writer gives up on, an icon made
    earlier, and a file the process may not read. *)
Definition photo_world : World := {|
  files := {[ "photo.png" := File [Byte.x89; Byte.x50; Byte.x4e; Byte.x47; Byte.x04];
              "app.ico" := File [Byte.x00; Byte.x00; Byte.x01; Byte.x00; Byte.x2a];
              "private.png" := Unreadable ]};
  write_denied := ∅;
  trace := []
|}.

(** A working directory with the icon source, a text file and a
    sub-directory; [locked.ico] cannot be written. *)
Definition demo_world : World := {|
  files := {[ "icon-512.png" := File [Byte.x89; Byte.x50; Byte.x4e; Byte.x47; Byte.x2a];
              "notes.txt" := File [Byte.x68; Byte.x69];
              "assets" := Dir ]};
  write_denied := {[ "locked.ico" ]};
  trace := []
|}.

(** ** Reading a trace *)

Definition is_print (e : event) : bool :=
  match e with Print _ => true | _ => false end.

(** * Properties *)

(** ** Substrings *)

Lemma prefix_append (s t : string) : String.prefix s (s +:+ t) = true.
Proof.
  induction s as [|c s IH]; simpl.
  - now destruct t.
  - destruct (Ascii.ascii_dec c c); [exact IH | congruence].
Qed.

Lemma contains_prefix (s t : string) :
  String.prefix s t = true -> contains s t = true.
Proof. intros Hp. destruct t; cbn [contains]; now rewrite Hp. Qed.

Lemma contains_skip (a s t : string) :
  contains s t = true -> contains s (a +:+ t) = true.
Proof.
  intros Hc. induction a as [|c a IH]; [exact Hc|].
  change (String c a +:+ t) with (String c (a +:+ t)).
  cbn [contains]. rewrite IH. apply orb_true_r.
Qed.

Lemma contains_self (s : string) : contains s s = true.
Proof.
  apply contains_prefix. induction s as [|c s IH]; simpl; [reflexivity|].
  destruct (Ascii.ascii_dec c c); [exact IH | congruence].
Qed.

Lemma contains_infix (a s b : string) : contains s (a +:+ s +:+ b) = true.
Proof. apply contains_skip, contains_prefix, prefix_append. Qed.

Lemma contains_suffix (a s : string) : contains s (a +:+ s) = true.
Proof. apply contains_skip, contains_self. Qed.

(** ** Traces *)

Lemma new_events_logs (es : list event) (w : World) :
  new_events w (logs es w) = es.
Proof. unfold new_events, logs; simpl. apply drop_app_length. Qed.

Lemma new_events_put (es : list event) (p : string) (n : Node) (w : World) :
  new_events w (logs es (put_file p n w)) = es.
Proof. unfold new_events, logs, put_file; simpl. apply drop_app_length. Qed.

Lemma trace_leave_partial (p : string) (partial : list Byte.byte) (w : World) :
  trace (leave_partial p partial w) = trace w.
Proof. unfold leave_partial. now destruct (files w !! p). Qed.

Lemma new_events_partial (es : list event) (p : string)
    (partial : list Byte.byte) (w : World) :
  new_events w (logs es (leave_partial p partial w)) = es.
Proof.
  unfold new_events, logs; simpl. rewrite trace_leave_partial.
  apply drop_app_length.
Qed.

Lemma leave_partial_logs (es : list event) (p : string)
    (partial : list Byte.byte) (w : World) :
  leave_partial p partial (logs es w) = logs es (leave_partial p partial w).
Proof.
  unfold leave_partial; cbn [logs files]. now destruct (files w !! p).
Qed.

(** A second break-off at the same place changes nothing more. *)
Lemma files_leave_partial_twice (es : list event) (p : string)
    (partial : list Byte.byte) (w : World) :
  files (leave_partial p partial (logs es (leave_partial p partial w)))
  = files (leave_partial p partial w).
Proof.
  rewrite leave_partial_logs. cbn [logs files].
  unfold leave_partial at 1.
  destruct (files (leave_partial p partial w) !! p) eqn:Hl; [|reflexivity].
  unfold leave_partial in *. destruct (files w !! p) eqn:Hp.
  - cbn [put_file files]. apply insert_insert_eq.
  - rewrite Hp in Hl. discriminate.
Qed.

(** ** The runs of [convert_to_ico], path by path *)

Section Runs.
Context {lib : ImageLibrary} {sh : SaveHandlers lib}.

Ltac step_script :=
  unfold convert_to_ico, Image_open, Image_save, os_path_exists, print,
    bind, emit, ret; simpl.

Ltac source_exists Hs :=
  rewrite bool_decide_eq_true_2 by (rewrite Hs; eexists; reflexivity);
  simpl; rewrite Hs.

Ltac tidy_trace := unfold logs, log; simpl; now rewrite <- !app_assoc.

(** The source is missing: a warning, nothing else. *)
Lemma run_missing (w : World) (source target : string) :
  files w !! source = None ->
  convert_to_ico source target w =
    (Ok PyNone,
     logs [Call "convert_to_ico" [source; target]; Stat source;
           Print ("Source file " +:+ source +:+ " not found.")] w).
Proof.
  intros Hs. step_script. rewrite Hs.
  rewrite bool_decide_eq_false_2 by (intros [x Hx]; discriminate).
  simpl. tidy_trace.
Qed.

(** The source is a directory: [Image.open] raises. *)
Lemma run_directory (w : World) (source target : string) :
  files w !! source = Some Dir ->
  convert_to_ico source target w =
    (Raise (IsADirectoryError source),
     logs [Call "convert_to_ico" [source; target]; Stat source;
           OpenRead source] w).
Proof. intros Hs. step_script. source_exists Hs. tidy_trace. Qed.

(** The source may not be read: [Image.open] raises. *)
Lemma run_unreadable (w : World) (source target : string) :
  files w !! source = Some Unreadable ->
  convert_to_ico source target w =
    (Raise (PermissionError source),
     logs [Call "convert_to_ico" [source; target]; Stat source;
           OpenRead source] w).
Proof. intros Hs. step_script. source_exists Hs. tidy_trace. Qed.

(** The source is a file the library does not identify. *)
Lemma run_undecodable (w : World) (source target : string)
    (data : list Byte.byte) :
  files w !! source = Some (File data) ->
  decode data = None ->
  convert_to_ico source target w =
    (Raise (UnidentifiedImageError source),
     logs [Call "convert_to_ico" [source; target]; Stat source;
           OpenRead source] w).
Proof.
  intros Hs Hd. step_script. source_exists Hs. rewrite Hd. tidy_trace.
Qed.

(** The source decodes but the target cannot be opened for writing. *)
Lemma run_unwritable (w : World) (source target : string)
    (data : list Byte.byte) (img : Image) :
  files w !! source = Some (File data) ->
  decode data = Some img ->
  can_write w target = false ->
  convert_to_ico source target w =
    (Raise (save_error w target),
     logs [Call "convert_to_ico" [source; target]; Stat source;
           OpenRead source; OpenWrite target] w).
Proof.
  intros Hs Hd Hw. step_script. source_exists Hs. rewrite Hd.
  change (can_write _ target) with (can_write w target). rewrite Hw.
  unfold save_error; simpl. tidy_trace.
Qed.

(** The source decodes, the target is opened, the writer breaks off. *)
Lemma run_broke_off (w : World) (source target : string)
    (data : list Byte.byte) (img : Image)
    (message : string) (partial : list Byte.byte) :
  files w !! source = Some (File data) ->
  decode data = Some img ->
  can_write w target = true ->
  save_handler ICO img icon_sizes = BrokeOff message partial ->
  convert_to_ico source target w =
    (Raise (WriterError message),
     logs [Call "convert_to_ico" [source; target]; Stat source;
           OpenRead source; OpenWrite target]
       (leave_partial target partial w)).
Proof.
  intros Hs Hd Hw Hh. step_script. source_exists Hs. rewrite Hd.
  change (can_write _ target) with (can_write w target). rewrite Hw.
  unfold icon_sizes in Hh. rewrite Hh.
  unfold leave_partial; simpl. destruct (files w !! target); tidy_trace.
Qed.

(** The source decodes and the writer completes. *)
Lemma run_completes (w : World) (source target : string)
    (data : list Byte.byte) (img : Image) (content : list Byte.byte) :
  files w !! source = Some (File data) ->
  decode data = Some img ->
  can_write w target = true ->
  save_handler ICO img icon_sizes = Complete content ->
  convert_to_ico source target w =
    (Ok PyNone,
     logs [Call "convert_to_ico" [source; target]; Stat source;
           OpenRead source; OpenWrite target;
           Print ("Created " +:+ target +:+ " from " +:+ source)]
       (put_file target (File content) w)).
Proof.
  intros Hs Hd Hw Hh. step_script. source_exists Hs. rewrite Hd.
  change (can_write _ target) with (can_write w target). rewrite Hw.
  unfold icon_sizes in Hh. rewrite Hh.
  unfold put_file; simpl. tidy_trace.
Qed.

End Runs.

(** Rewrites the run of [convert_to_ico source target w] in the goal into
    its outcome, one goal per path of the function. *)
Ltac by_path w source target :=
  let data := fresh "data" in
  let img := fresh "img" in
  let content := fresh "content" in
  let message := fresh "message" in
  let partial := fresh "partial" in
  let Hs := fresh "Hs" in
  let Hd := fresh "Hd" in
  let Hw := fresh "Hw" in
  let Hh := fresh "Hh" in
  destruct (files w !! source) as [[data| |]|] eqn:Hs;
  [ destruct (decode data) as [img|] eqn:Hd;
    [ destruct (can_write w target) eqn:Hw;
      [ destruct (save_handler ICO img icon_sizes)
          as [content|message partial] eqn:Hh;
        [ rewrite (run_completes w source target data img content
                     Hs Hd Hw Hh)
        | rewrite (run_broke_off w source target data img message partial
                     Hs Hd Hw Hh) ]
      | rewrite (run_unwritable w source target data img Hs Hd Hw) ]
    | rewrite (run_undecodable w source target data Hs Hd) ]
  | rewrite (run_directory w source target Hs)
  | rewrite (run_unreadable w source target Hs)
  | rewrite (run_missing w source target Hs) ].

(** ** What the script guarantees, whatever the writers do *)

Section Claims.
Context {lib : ImageLibrary} {sh : SaveHandlers lib}.

(** C2.  When [source] does not exist, the call only checks for it and
    prints one line, which contains [source]: it opens nothing for reading
    or writing, leaves every file as it was, raises nothing and returns. *)
Theorem convert_to_ico_missing_source (w : World) (source target : string) :
  files w !! source = None ->
  let msg := "Source file " +:+ source +:+ " not found." in
  convert_to_ico source target w =
    (Ok PyNone,
     logs [Call "convert_to_ico" [source; target]; Stat source; Print msg] w)
  /\ files (snd (convert_to_ico source target w)) = files w
  /\ contains source msg = true.
Proof.
  intros Hs msg. rewrite (run_missing w source target Hs).
  repeat split. apply contains_infix.
Qed.


(** C5.  Two calls in a row with the same arguments, the content at
    [source] being the same when the second starts as when the first
    started: the second ends as the first did and leaves the file system,
    [target] included, exactly as the first left it. *)
Theorem convert_to_ico_twice (w : World) (source target : string) :
  let first := convert_to_ico source target w in
  let second := convert_to_ico source target (snd first) in
  files (snd first) !! source = files w !! source ->
  fst second = fst first /\
  files (snd second) = files (snd first) /\
  files (snd second) !! target = files (snd first) !! target.
Proof.
  intros first second Hsame.
  assert (Hgoal : fst second = fst first /\ files (snd second) = files (snd first)).
  2: { destruct Hgoal as [? Hf]. now rewrite Hf. }
  subst second. revert Hsame. subst first.
  by_path w source target; cbn [fst snd]; set (w1 := logs _ _); intros Hsame.
  - assert (Hw1 : can_write w1 target = true).
    { unfold can_write in *. subst w1. simpl.
      rewrite lookup_insert_eq.
      apply andb_prop in Hw as [Hden _]. now rewrite Hden. }
    rewrite (run_completes w1 source target data img content Hsame Hd Hw1 Hh).
    subst w1. simpl. split; [reflexivity|]. apply insert_insert_eq.
  - assert (Hw1 : can_write w1 target = true).
    { unfold can_write in *. subst w1. cbn [logs files write_denied].
      apply andb_prop in Hw as [Hden Hnode].
      unfold leave_partial. destruct (files w !! target) as [n|] eqn:Ht.
      - cbn [put_file files write_denied]. rewrite lookup_insert_eq.
        now rewrite Hden.
      - rewrite Ht. now rewrite Hden. }
    rewrite (run_broke_off w1 source target data img message partial
               Hsame Hd Hw1 Hh).
    subst w1. cbn [fst snd]. split; [reflexivity|].
    cbn [logs files]. apply files_leave_partial_twice.
  - rewrite (run_unwritable w1 source target data img Hsame Hd Hw).
    split; reflexivity.
  - rewrite (run_undecodable w1 source target data Hsame Hd).
    split; reflexivity.
  - rewrite (run_directory w1 source target Hsame). split; reflexivity.
  - rewrite (run_unreadable w1 source target Hsame). split; reflexivity.
  - rewrite (run_missing w1 source target Hsame). split; reflexivity.
Qed.

(** C6.  When [source] decodes, [target] can be opened for writing and
    the ICO writer completes for the image and the six sizes, the call
    does, in this order and nothing else: check that [source] exists, open
    and decode it, open [target] and put there what the writer made, print
    one line; that line contains both paths, and the call returns. *)
Theorem convert_to_ico_success_sequence (w : World) (source target : string)
    (data : list Byte.byte) (img : Image) (content : list Byte.byte) :
  files w !! source = Some (File data) ->
  decode data = Some img ->
  can_write w target = true ->
  save_handler ICO img
    [(256, 256); (128, 128); (64, 64); (48, 48); (32, 32); (16, 16)]
    = Complete content ->
  let out := convert_to_ico source target w in
  let msg := "Created " +:+ target +:+ " from " +:+ source in
  fst out = Ok PyNone /\
  trace (snd out) =
    trace w ++ [Call "convert_to_ico" [source; target]; Stat source;
                OpenRead source; OpenWrite target; Print msg] /\
  files (snd out) !! target = Some (File content) /\
  contains source msg = true /\
  contains target msg = true.
Proof.
  intros Hs Hd Hw Hh out msg. subst out msg.
  rewrite (run_completes w source target data img content Hs Hd Hw Hh).
  cbn [fst snd logs put_file files trace].
  split; [reflexivity|]. split; [reflexivity|].
  split; [apply lookup_insert_eq|]. split.
  - apply contains_skip, contains_skip, contains_suffix.
  - apply contains_infix.
Qed.

(** C7.  Run as the main module, whatever the command line, the script
    behaves as one call [convert_to_ico('icon-512.png', 'app.ico')] whose
    value it drops, and that is the only call of the function it makes. *)
Theorem script_main_calls_once (argv : list string) (w : World) :
  let out := script "__main__" argv w in
  let call := convert_to_ico "icon-512.png" "app.ico" w in
  snd out = snd call /\
  fst out = match fst call with Ok _ => Ok tt | Raise e => Raise e end /\
  List.filter is_call (new_events w (snd out)) =
    [Call "convert_to_ico" ["icon-512.png"; "app.ico"]].
Proof.
  intros out call.
  assert (Hout : out = match call with
                       | (Ok _, w') => (Ok tt, w')
                       | (Raise e, w') => (Raise e, w')
                       end).
  { subst out call. unfold script, bind, ret. simpl.
    destruct (convert_to_ico "icon-512.png" "app.ico" w) as [[v|e] w'];
      reflexivity. }
  assert (Hcalls : List.filter is_call (new_events w (snd call)) =
                     [Call "convert_to_ico" ["icon-512.png"; "app.ico"]]).
  { subst call.
    by_path w "icon-512.png" "app.ico"; cbn [snd];
      rewrite ?new_events_put, ?new_events_partial, ?new_events_logs;
      reflexivity. }
  rewrite Hout. destruct call as [[v|e] w']; cbn [fst snd] in *; auto.
Qed.

(** C8.  There is a source that exists and is no image file, a directory,
    for which the existence check answers true and the call raises out of
    [Image.open], having printed nothing. *)
Theorem convert_to_ico_directory_source :
  exists (w : World) (source target : string),
    fst (os_path_exists source w) = Ok true /\
    convert_to_ico source target w =
      (Raise (IsADirectoryError source),
       logs [Call "convert_to_ico" [source; target]; Stat source;
             OpenRead source] w).
Proof.
  exists demo_world, "assets", "app.ico". split; [reflexivity|].
  now apply run_directory.
Qed.

(** C9.  Whenever the call returns, the value is [None]: the same on the
    missing-source path and on the success path. *)
Theorem convert_to_ico_returns_none (w w' : World) (source target : string)
    (v : pyval) :
  convert_to_ico source target w = (Ok v, w') -> v = PyNone.
Proof.
  by_path w source target; intros Hrun; try discriminate Hrun; congruence.
Qed.

(** ** Further properties of the script *)

(** X3.  The only path a call ever opens for writing is [target], and it
    does so only after the source has decoded: a source that fails to open
    never gets as far as touching the target. *)
Theorem convert_to_ico_write_after_decode (w : World)
    (source target q : string) :
  In (OpenWrite q) (new_events w (snd (convert_to_ico source target w))) ->
  q = target /\ is_Some (image_at w source).
Proof.
  unfold image_at.
  by_path w source target; cbn [snd];
    rewrite ?new_events_put, ?new_events_partial, ?new_events_logs;
    cbn [In]; intros Hin;
    repeat (destruct Hin as [Hin|Hin]; try discriminate Hin);
    try contradiction;
    injection Hin as <-; (split; [reflexivity|]); eexists; reflexivity.
Qed.

(** X4.  A call prints exactly one line when it returns and none when it
    raises. *)
Theorem convert_to_ico_prints_iff_returns (w : World)
    (source target : string) :
  let out := convert_to_ico source target w in
  length (List.filter is_print (new_events w (snd out))) =
    match fst out with Ok _ => 1%nat | Raise _ => 0%nat end.
Proof.
  intros out. subst out.
  by_path w source target; cbn [fst snd];
    rewrite ?new_events_put, ?new_events_partial, ?new_events_logs;
    reflexivity.
Qed.

(** X5.  The not-found line is printed exactly when nothing is at
    [source]: never for a directory, an unreadable image or a failed
    write, and never on success. *)
Theorem convert_to_ico_not_found_iff (w : World) (source target : string) :
  In (Print ("Source file " +:+ source +:+ " not found."))
     (new_events w (snd (convert_to_ico source target w)))
  <-> files w !! source = None.
Proof.
  by_path w source target; cbn [snd];
    rewrite ?new_events_put, ?new_events_partial, ?new_events_logs;
    cbn [In];
    (split; [ intros Hin;
              repeat (destruct Hin as [Hin|Hin]; try discriminate Hin);
              try contradiction
            | intros Hnone; try discriminate Hnone ]).
  - reflexivity.
  - right; right; left; reflexivity.
Qed.

(** X8.  Because the existence check comes first, no call ends in
    [FileNotFoundError] for its source. *)
Theorem convert_to_ico_never_source_not_found (w : World)
    (source target : string) :
  fst (convert_to_ico source target w) <> Raise (FileNotFoundError source).
Proof.
  by_path w source target; cbn [fst]; try discriminate.
  unfold save_error. destruct (files w !! target) as [[| |]|]; discriminate.
Qed.

(** Imported under any other name, the module calls nothing. *)
Lemma script_imported (name : string) (argv : list string) (w : World) :
  name <> "__main__" -> script name argv w = (Ok tt, w).
Proof.
  intros Hname. unfold script.
  destruct (String.eqb name "__main__") eqn:Heq; [|reflexivity].
  apply String.eqb_eq in Heq. contradiction.
Qed.

End Claims.

(** ** What the icon holds, with the writers as the spec describes them *)

#[local] Existing Instance spec_handlers.

Section Icon.
Context {lib : ImageLibrary}.

(** C1.  When [source] holds an image the library decodes and [target]
    can be written, the call returns and leaves at [target] an icon file
    with exactly six frames, of sizes 256, 128, 64, 48, 32 and 16 square,
    in that order.  (The icon writer is the one modelled from the spec.) *)
Theorem convert_to_ico_six_resolutions (w : World) (source target : string)
    (data : list Byte.byte) (img : Image) :
  files w !! source = Some (File data) ->
  decode data = Some img ->
  can_write w target = true ->
  let out := convert_to_ico source target w in
  let frames := ico_frames img icon_sizes in
  fst out = Ok PyNone /\
  files (snd out) !! target = Some (File (ico_bytes frames)) /\
  map frame_size frames =
    [(256, 256); (128, 128); (64, 64); (48, 48); (32, 32); (16, 16)] /\
  length frames = 6%nat.
Proof.
  intros Hs Hd Hw out frames. subst out.
  rewrite (run_completes (sh := spec_handlers) w source target data img
             (encode ICO img icon_sizes) Hs Hd Hw eq_refl). simpl.
  repeat split. apply lookup_insert_eq.
Qed.

(** C4.  On the same successful path, the frame with the most pixels in
    the icon left at [target] is the decoded source resampled to 256 by
    256.  (The icon writer is the one modelled from the spec; resampling
    itself is the library's.) *)
Theorem convert_to_ico_largest_frame (w : World) (source target : string)
    (data : list Byte.byte) (img : Image) :
  files w !! source = Some (File data) ->
  decode data = Some img ->
  can_write w target = true ->
  exists frames : list (Frame Image),
    files (snd (convert_to_ico source target w)) !! target
      = Some (File (ico_bytes frames)) /\
    largest_frame frames = Some (MkFrame (256, 256) (resample img (256, 256))).
Proof.
  intros Hs Hd Hw. exists (ico_frames img icon_sizes).
  rewrite (run_completes (sh := spec_handlers) w source target data img
             (encode ICO img icon_sizes) Hs Hd Hw eq_refl). simpl.
  split; [apply lookup_insert_eq | reflexivity].
Qed.

(** X2.  When the source exists, a normal return means the work was done:
    the source decoded and [target] holds its six-size icon encoding. *)
Theorem convert_to_ico_return_means_written (w : World)
    (source target : string) (v : pyval) :
  is_Some (files w !! source) ->
  fst (convert_to_ico source target w) = Ok v ->
  exists img : Image,
    image_at w source = Some img /\
    files (snd (convert_to_ico source target w)) !! target
      = Some (File (encode ICO img icon_sizes)).
Proof.
  intros [node Hnode]. unfold image_at. revert Hnode.
  by_path w source target; cbn [fst snd]; intros Hnode Hret;
    try discriminate.
  exists img. split; [reflexivity|].
  injection Hh as <-.
  cbn [logs put_file files]. apply lookup_insert_eq.
Qed.

End Icon.

(** ** The theorems at work on [demo_world] *)

Lemma convert_to_ico_six_resolutions_witness :
  files demo_world !! "icon-512.png"
    = Some (File [Byte.x89; Byte.x50; Byte.x4e; Byte.x47; Byte.x2a]) /\
  can_write demo_world "app.ico" = true /\
  let out := convert_to_ico (lib := stub_library)
               "icon-512.png" "app.ico" demo_world in
  let frames := ico_frames (lib := stub_library)
                  ((512, 512), [Byte.x2a]) icon_sizes in
  fst out = Ok PyNone /\
  files (snd out) !! "app.ico"
    = Some (File (ico_bytes (ImageLibrary := stub_library) frames)) /\
  map frame_size frames =
    [(256, 256); (128, 128); (64, 64); (48, 48); (32, 32); (16, 16)] /\
  length frames = 6%nat.
Proof.
  split; [reflexivity|]. split; [reflexivity|].
  apply (@convert_to_ico_six_resolutions stub_library demo_world
           "icon-512.png" "app.ico"
           [Byte.x89; Byte.x50; Byte.x4e; Byte.x47; Byte.x2a]
           ((512, 512), [Byte.x2a])); reflexivity.
Defined.

Lemma convert_to_ico_missing_source_witness :
  files demo_world !! "logo.png" = None /\
  convert_to_ico (lib := stub_library) "logo.png" "app.ico" demo_world =
    (Ok PyNone,
     logs [Call "convert_to_ico" ["logo.png"; "app.ico"]; Stat "logo.png";
           Print "Source file logo.png not found."] demo_world).
Proof.
  split; [reflexivity|].
  apply (@convert_to_ico_missing_source stub_library _ demo_world
           "logo.png" "app.ico"). reflexivity.
Defined.


Lemma convert_to_ico_largest_frame_witness :
  can_write demo_world "app.ico" = true /\
  exists frames,
    files (snd (convert_to_ico (lib := stub_library)
                  "icon-512.png" "app.ico" demo_world)) !! "app.ico"
      = Some (File (ico_bytes (ImageLibrary := stub_library) frames)) /\
    largest_frame frames = Some (MkFrame (256, 256) ((256, 256), [Byte.x2a])).
Proof.
  split; [reflexivity|].
  apply (@convert_to_ico_largest_frame stub_library demo_world
           "icon-512.png" "app.ico"
           [Byte.x89; Byte.x50; Byte.x4e; Byte.x47; Byte.x2a]
           ((512, 512), [Byte.x2a])); reflexivity.
Defined.

Lemma convert_to_ico_twice_witness :
  let first := convert_to_ico (lib := stub_library)
                 "icon-512.png" "app.ico" demo_world in
  let second := convert_to_ico (lib := stub_library)
                  "icon-512.png" "app.ico" (snd first) in
  files (snd first) !! "icon-512.png" = files demo_world !! "icon-512.png" /\
  fst second = fst first /\
  files (snd second) = files (snd first) /\
  files (snd second) !! "app.ico" = files (snd first) !! "app.ico".
Proof.
  intros first second.
  assert (Hsame : files (snd first) !! "icon-512.png"
                    = files demo_world !! "icon-512.png") by reflexivity.
  split; [exact Hsame|].
  exact (@convert_to_ico_twice stub_library _ demo_world
           "icon-512.png" "app.ico" Hsame).
Defined.

Lemma convert_to_ico_success_sequence_witness :
  can_write demo_world "app.ico" = true /\
  let out := convert_to_ico (lib := stub_library)
               "icon-512.png" "app.ico" demo_world in
  fst out = Ok PyNone /\
  trace (snd out) =
    [Call "convert_to_ico" ["icon-512.png"; "app.ico"]; Stat "icon-512.png";
     OpenRead "icon-512.png"; OpenWrite "app.ico";
     Print "Created app.ico from icon-512.png"] /\
  files (snd out) !! "app.ico"
    = Some (File [Byte.x00; Byte.x00; Byte.x01; Byte.x00; Byte.x2a; Byte.x2a;
                  Byte.x2a; Byte.x2a; Byte.x2a; Byte.x2a]).
Proof.
  split; [reflexivity|].
  destruct (@convert_to_ico_success_sequence stub_library spec_handlers
              demo_world "icon-512.png" "app.ico"
              [Byte.x89; Byte.x50; Byte.x4e; Byte.x47; Byte.x2a]
              ((512, 512), [Byte.x2a])
              [Byte.x00; Byte.x00; Byte.x01; Byte.x00; Byte.x2a; Byte.x2a;
               Byte.x2a; Byte.x2a; Byte.x2a; Byte.x2a]
              eq_refl eq_refl eq_refl eq_refl)
    as (Hret & Htrace & Hfile & _).
  split; [exact Hret|]. split; [exact Htrace | exact Hfile].
Defined.

(** Without the writer completing, the sequence of C6 is not what
    happens: the photo decodes and [app.ico] can be written, yet the call
    raises, prints nothing, and the icon made earlier is left cut down to
    the four bytes the writer had put out. *)
Lemma convert_to_ico_success_sequence_counterexample :
  let out := convert_to_ico (lib := stub_library) (sh := picky_handlers)
               "photo.png" "app.ico" photo_world in
  files photo_world !! "photo.png"
    = Some (File [Byte.x89; Byte.x50; Byte.x4e; Byte.x47; Byte.x04]) /\
  decode (ImageLibrary := stub_library)
    [Byte.x89; Byte.x50; Byte.x4e; Byte.x47; Byte.x04]
    = Some ((512, 512), [Byte.x04]) /\
  can_write photo_world "app.ico" = true /\
  fst out = Raise (WriterError "cannot write mode CMYK as PNG") /\
  new_events photo_world (snd out) =
    [Call "convert_to_ico" ["photo.png"; "app.ico"]; Stat "photo.png";
     OpenRead "photo.png"; OpenWrite "app.ico"] /\
  files (snd out) !! "app.ico"
    = Some (File [Byte.x00; Byte.x00; Byte.x01; Byte.x00]).
Proof. repeat split; reflexivity. Qed.

Lemma convert_to_ico_returns_none_witness :
  let out := convert_to_ico (lib := stub_library)
               "logo.png" "app.ico" demo_world in
  exists v : pyval, out = (Ok v, snd out) /\ v = PyNone.
Proof.
  intros out.
  exists (match fst out with Ok v => v | Raise _ => PyStr "" end).
  assert (Hrun : convert_to_ico (lib := stub_library)
                   "logo.png" "app.ico" demo_world
                 = (Ok (match fst out with Ok v => v | Raise _ => PyStr "" end),
                    snd out)) by reflexivity.
  split; [exact Hrun|].
  exact (@convert_to_ico_returns_none stub_library _ demo_world (snd out)
           "logo.png" "app.ico" _ Hrun).
Defined.

Lemma convert_to_ico_return_means_written_witness :
  is_Some (files demo_world !! "icon-512.png") /\
  fst (convert_to_ico (lib := stub_library)
         "icon-512.png" "app.ico" demo_world) = Ok PyNone /\
  exists img,
    image_at (lib := stub_library) demo_world "icon-512.png" = Some img /\
    files (snd (convert_to_ico (lib := stub_library)
                  "icon-512.png" "app.ico" demo_world)) !! "app.ico"
      = Some (File (encode (lib := stub_library) ICO img icon_sizes)).
Proof.
  assert (Hs : is_Some (files demo_world !! "icon-512.png"))
    by (eexists; reflexivity).
  assert (Hret : fst (convert_to_ico (lib := stub_library)
                        "icon-512.png" "app.ico" demo_world) = Ok PyNone)
    by reflexivity.
  split; [exact Hs|]. split; [exact Hret|].
  exact (@convert_to_ico_return_means_written stub_library demo_world
           "icon-512.png" "app.ico" PyNone Hs Hret).
Defined.

Lemma convert_to_ico_write_after_decode_witness :
  In (OpenWrite "locked.ico")
     (new_events demo_world
        (snd (convert_to_ico (lib := stub_library)
                "icon-512.png" "locked.ico" demo_world))) /\
  "locked.ico" = "locked.ico" /\
  is_Some (image_at (lib := stub_library) demo_world "icon-512.png").
Proof.
  assert (Hin : In (OpenWrite "locked.ico")
                  (new_events demo_world
                     (snd (convert_to_ico (lib := stub_library)
                             "icon-512.png" "locked.ico" demo_world))))
    by (do 3 right; left; reflexivity).
  split; [exact Hin|].
  exact (@convert_to_ico_write_after_decode stub_library _ demo_world
           "icon-512.png" "locked.ico" "locked.ico" Hin).
Defined.

(** The remaining paths, run on [demo_world] and [photo_world]. *)
Example run_text_file :
  convert_to_ico (lib := stub_library) "notes.txt" "app.ico" demo_world =
    (Raise (UnidentifiedImageError "notes.txt"),
     logs [Call "convert_to_ico" ["notes.txt"; "app.ico"]; Stat "notes.txt";
           OpenRead "notes.txt"] demo_world).
Proof. reflexivity. Qed.

Example run_locked_target :
  convert_to_ico (lib := stub_library) "icon-512.png" "locked.ico" demo_world =
    (Raise (PermissionError "locked.ico"),
     logs [Call "convert_to_ico" ["icon-512.png"; "locked.ico"];
           Stat "icon-512.png"; OpenRead "icon-512.png";
           OpenWrite "locked.ico"] demo_world).
Proof. reflexivity. Qed.

Example run_directory_target :
  fst (convert_to_ico (lib := stub_library)
         "icon-512.png" "assets" demo_world)
    = Raise (IsADirectoryError "assets").
Proof. reflexivity. Qed.

Example run_script_main :
  new_events demo_world
    (snd (script (lib := stub_library) "__main__" ["--size"; "64"] demo_world))
    = [Call "convert_to_ico" ["icon-512.png"; "app.ico"]; Stat "icon-512.png";
       OpenRead "icon-512.png"; OpenWrite "app.ico";
       Print "Created app.ico from icon-512.png"].
Proof. reflexivity. Qed.

Example run_unreadable_source :
  convert_to_ico (lib := stub_library) "private.png" "app.ico" photo_world =
    (Raise (PermissionError "private.png"),
     logs [Call "convert_to_ico" ["private.png"; "app.ico"];
           Stat "private.png"; OpenRead "private.png"] photo_world).
Proof. reflexivity. Qed.
